(** * SkateParkMap: the state and event handlers of [src/component/SkateParkMap.jsx]

    The component keeps six state slots (viewport, selectedPark, userPin,
    startLocation, endLocation, route) and reacts to map, keyboard, marker and
    button events.  The handlers are embedded as computations in a small
    state-and-exception monad over a [World]: the component state, the list of
    URLs handed to [fetch], and the console.  The remote services are an
    oracle [net] that is quantified over in every theorem.  Awaited calls run
    to completion in program order; overlapping invocations are not modelled. *)

From Stdlib Require Import PrimFloat.
From stdpp Require Import gmap strings list.

#[local] Set Warnings "-register-all,-inexact-float".
#[local] Open Scope string_scope.
#[local] Open Scope list_scope.

(** ** JavaScript values *)

Module JS.

(** What [JSON.parse] can produce, plus [undefined].  Numbers are IEEE
    doubles; an object is a finite map from property names to values. *)
Inductive value : Type :=
| VUndefined
| VNull
| VBool (b : bool)
| VNum (n : float)
| VStr (s : string)
| VArr (elems : list value)
| VObj (props : gmap string value).

(** Values that can be thrown or be the reason of a rejected promise. *)
Inductive exn : Type :=
| FetchRejected            (* [fetch] rejected: no response at all *)
| JsonRejected             (* [response.json()] rejected: the body is not JSON *)
| TypeError (msg : string).

Inductive res (A : Type) : Type :=
| Ok (a : A)
| Throw (e : exn).
Arguments Ok {A} a.
Arguments Throw {A} e.

Definition res_bind {A B} (r : res A) (k : A → res B) : res B :=
  match r with
  | Ok a => k a
  | Throw e => Throw e
  end.

#[global] Instance res_mbind : MBind res := λ A B k r, res_bind r k.
#[global] Instance res_mret : MRet res := @Ok.

(** ToBoolean. *)
Definition truthy (v : value) : bool :=
  match v with
  | VUndefined | VNull => false
  | VBool b => b
  | VNum n => negb (PrimFloat.eqb n 0 || PrimFloat.is_nan n)
  | VStr s => negb (String.eqb s "")
  | VArr _ | VObj _ => true
  end.

(** [v.name] for a [name] that no prototype defines ([features], [geometry],
    [coordinates], [routes]): an own property of an object, [undefined] on
    every other value that has properties, a TypeError on [null] and
    [undefined]. *)
Definition get (v : value) (name : string) : res value :=
  match v with
  | VUndefined => Throw (TypeError "Cannot read properties of undefined")
  | VNull => Throw (TypeError "Cannot read properties of null")
  | VObj props => Ok (default VUndefined (props !! name))
  | _ => Ok VUndefined
  end.

(** A string is held as the bytes of its UTF-8 text (an unpaired surrogate as
    the three bytes its number would take).  [s[0]] is the first UTF-16 unit
    of [s]; the handlers below use it only to read a property that no string
    has, so what matters is whether it exists: [undefined] for the empty
    string, a one-character string otherwise. *)
Definition first_char (s : string) : value :=
  match s with
  | EmptyString => VUndefined
  | String c _ => VStr (String c EmptyString)
  end.

(** The number of bytes of the code point that starts with lead byte [c]. *)
Definition code_point_width (c : Ascii.ascii) : nat :=
  let n := Ascii.nat_of_ascii c in
  if Nat.ltb n 192 then 1
  else if Nat.ltb n 224 then 2
  else if Nat.ltb n 240 then 3
  else 4.

(** Iterating a string gives its code points, one string each. *)
Definition first_code_point (s : string) : value :=
  match s with
  | EmptyString => VUndefined
  | String c _ => VStr (String.substring 0 (code_point_width c) s)
  end.

Definition after_first_code_point (s : string) : string :=
  match s with
  | EmptyString => EmptyString
  | String c _ => String.substring (code_point_width c) (String.length s) s
  end.

(** [v[0]]. *)
Definition get0 (v : value) : res value :=
  match v with
  | VUndefined => Throw (TypeError "Cannot read properties of undefined")
  | VNull => Throw (TypeError "Cannot read properties of null")
  | VArr elems => Ok (default VUndefined (head elems))
  | VStr s => Ok (first_char s)
  | VObj props => Ok (default VUndefined (props !! "0"))
  | _ => Ok VUndefined
  end.

Section Conversions.

(** Number::toString and StringToNumber are not modelled; the handlers only
    reach them through [Array.prototype.join] and through [>] on a value
    that is not a number. *)
Variable number_to_string : float → string.
Variable string_to_number : string → float.

(** [elems.join(",")], given the conversion of one element. *)
Definition join_with (elem_to_string : value → res string)
  : list value → res string :=
  fix go (elems : list value) : res string :=
    match elems with
    | [] => Ok ""
    | [v] => elem_to_string v
    | v :: rest =>
        s ← elem_to_string v;
        r ← go rest;
        Ok (s +:+ "," +:+ r)
    end.

(** The conversion [join] applies to an element: [null] and [undefined]
    give the empty string, a nested array is joined the same way.  An
    object from JSON is "[object Object]", unless an own property hides
    [Object.prototype.toString]: that property is not callable, [valueOf]
    gives no primitive either, and the conversion is a TypeError. *)
Fixpoint to_string_in_join (v : value) : res string :=
  match v with
  | VUndefined | VNull => Ok ""
  | VBool true => Ok "true"
  | VBool false => Ok "false"
  | VNum n => Ok (number_to_string n)
  | VStr s => Ok s
  | VArr elems => join_with to_string_in_join elems
  | VObj props =>
      match props !! "toString" with
      | Some _ => Throw (TypeError "Cannot convert object to primitive value")
      | None => Ok "[object Object]"
      end
  end.

Definition join (elems : list value) : res string :=
  join_with to_string_in_join elems.

(** [v.join(",")]: only arrays have the method; calling a property that
    is not a function is a TypeError. *)
Definition call_join (v : value) : res string :=
  match v with
  | VUndefined => Throw (TypeError "Cannot read properties of undefined")
  | VNull => Throw (TypeError "Cannot read properties of null")
  | VArr elems => join elems
  | _ => Throw (TypeError "join is not a function")
  end.

(** [v > 0]: ToPrimitive, then ToNumber, then comparison of doubles. *)
Definition gt_zero (v : value) : res bool :=
  match v with
  | VUndefined | VNull => Ok false
  | VBool b => Ok b
  | VNum n => Ok (PrimFloat.ltb 0 n)
  | VStr s => Ok (PrimFloat.ltb 0 (string_to_number s))
  | VArr _ | VObj _ =>
      s ← to_string_in_join v;
      Ok (PrimFloat.ltb 0 (string_to_number s))
  end.

(** [v.length > 0] for a truthy [v].  The length of an array or of a string
    is kept as a natural number instead of being turned into a double and
    compared; on an object [length] is an own property like any other. *)
Definition length_gt_zero (v : value) : res bool :=
  match v with
  | VUndefined => Throw (TypeError "Cannot read properties of undefined")
  | VNull => Throw (TypeError "Cannot read properties of null")
  | VArr elems => Ok (bool_decide (0 < length elems))
  | VStr s => Ok (bool_decide (0 < String.length s))
  | VObj props => gt_zero (default VUndefined (props !! "length"))
  | _ => Ok false
  end.

End Conversions.

End JS.

Import JS.

(** ** Component state, console and network *)

(** The six [useState] slots of [App].  [viewport] is always an object and is
    kept as its property map; the two text inputs always hold strings. *)
Record State : Type := mkState {
  viewport : gmap string value;
  selectedPark : value;
  userPin : value;
  startLocation : string;
  endLocation : string;
  route : value;
}.

Definition setViewport (f : gmap string value → gmap string value) (s : State) : State :=
  mkState (f (viewport s)) (selectedPark s) (userPin s)
          (startLocation s) (endLocation s) (route s).

Definition setSelectedPark (v : value) (s : State) : State :=
  mkState (viewport s) v (userPin s) (startLocation s) (endLocation s) (route s).

Definition setUserPin (v : value) (s : State) : State :=
  mkState (viewport s) (selectedPark s) v (startLocation s) (endLocation s) (route s).

Definition setRoute (v : value) (s : State) : State :=
  mkState (viewport s) (selectedPark s) (userPin s)
          (startLocation s) (endLocation s) v.

(** The state [App] starts from (lines 8-27 of the source). *)
Definition initial_state : State :=
  mkState
    (<["latitude" := VNum 45.4211]>
       (<["longitude" := VNum (-75.6903)]>
          (<["width" := VStr "100vw"]>
             (<["height" := VStr "100vh"]>
                (<["zoom" := VNum 10]>
                   (<["bearing" := VNum 0]>
                      (<["pitch" := VNum 0]> ∅)))))))
    VNull VNull "" "" VNull.

(** One call of [console.log] or [console.error]: the message and the extra
    arguments, each a value or a caught error. *)
Inductive console_entry : Type :=
| ConsoleLog (msg : string) (args : list (value + exn))
| ConsoleError (msg : string) (args : list (value + exn)).

(** What a handler can observe and change: the component state, the URLs
    passed to [fetch] so far (oldest first) and the console (oldest first). *)
Record World : Type := mkWorld {
  app : State;
  requests : list string;
  console : list console_entry;
}.

(** A response as the handlers use it: the [ok] flag, and what [json()]
    resolves to ([None]: it rejects, the body is not JSON). *)
Record Response : Type := mkResponse {
  ok : bool;
  body : option value;
}.

(** [fetch] either rejects or resolves to a response. *)
Inductive fetch_outcome : Type :=
| Rejected
| Resolved (r : Response).

(** ** The handler monad: state passing with exceptions *)

Definition M (A : Type) : Type := World → res A * World.

Definition ret {A} (a : A) : M A := λ w, (Ok a, w).

Definition bind {A B} (m : M A) (k : A → M B) : M B :=
  λ w, match m w with
       | (Ok a, w') => k a w'
       | (Throw e, w') => (Throw e, w')
       end.

#[global] Instance M_mret : MRet M := @ret.
#[global] Instance M_mbind : MBind M := λ A B k m, bind m k.

(** A pure, possibly throwing, expression. *)
Definition lift {A} (r : res A) : M A := λ w, (r, w).

(** [try { body } catch (error) { handler }]: what [body] did before it
    threw stays done. *)
Definition try_catch {A} (body : M A) (handler : exn → M A) : M A :=
  λ w, match body w with
       | (Ok a, w') => (Ok a, w')
       | (Throw e, w') => handler e w'
       end.

Definition modify_state (f : State → State) : M () :=
  λ w, (Ok (), mkWorld (f (app w)) (requests w) (console w)).

Definition read_state : M State := λ w, (Ok (app w), w).

Definition console_log (msg : string) (args : list (value + exn)) : M () :=
  λ w, (Ok (), mkWorld (app w) (requests w) (console w ++ [ConsoleLog msg args])).

Definition console_error (msg : string) (args : list (value + exn)) : M () :=
  λ w, (Ok (), mkWorld (app w) (requests w) (console w ++ [ConsoleError msg args])).

(** [await response.json()]. *)
Definition json (response : Response) : M value :=
  match body response with
  | Some data => ret data
  | None => lift (Throw JsonRejected)
  end.

(** The world a handler leaves behind, and its completion. *)
Definition exec {A} (m : M A) (w : World) : World := snd (m w).
Definition completion {A} (m : M A) (w : World) : res A := fst (m w).

(** *** The keyboard listener (lines 30-41) and the popup's [onClose] (line 221) *)

Definition keydown_listener (key : string) : M () :=
  if String.eqb key "Escape" then modify_state (setSelectedPark VNull)
  else ret ().

Definition popup_onClose : M () := modify_state (setSelectedPark VNull).

(** *** The geolocation effect (lines 44-62) *)

(** What the browser answers to the one request for the position. *)
Inductive geolocation : Type :=
| NotSupported                            (* no [geolocation] in [navigator] *)
| PositionUnavailable                     (* the error callback is called *)
| Position (latitude longitude : float).  (* [position.coords] *)

Definition geolocation_effect (g : geolocation) : M () :=
  match g with
  | Position latitude longitude =>
      modify_state
        (setViewport
           (λ prevViewport,
              <["zoom" := VNum 12]>
                (<["longitude" := VNum longitude]>
                   (<["latitude" := VNum latitude]> prevViewport))))
  | PositionUnavailable =>
      console_log "Geolocation not available, using default location." []
  | NotSupported =>
      console_log "Geolocation not supported, using default location." []
  end.

(** *** The search control's [result] listener (lines 98-110) *)


(** *** handleMove (lines 113-118) *)

(** [{...prevViewport, ...evt.viewState}]: the properties of [viewState] win. *)
Definition handleMove (viewState : gmap string value) : M () :=
  modify_state (setViewport (λ prevViewport, viewState ∪ prevViewport)).

(** *** handleMapClick (lines 121-127) *)

(** [const [a, b] = v]: the first two items of an iterable.  Of the values
    here only arrays and strings are iterable (a string by code points). *)
Definition destructure_pair (v : value) : res (value * value) :=
  match v with
  | VArr elems =>
      Ok (default VUndefined (elems !! 0), default VUndefined (elems !! 1))
  | VStr s =>
      Ok (first_code_point s, first_code_point (after_first_code_point s))
  | _ => Throw (TypeError "value is not iterable")
  end.

(** The handler reads nothing but [event.lngLat]. *)
Definition handleMapClick (lngLat : value) : M () :=
  '(longitude, latitude) ← lift (destructure_pair lngLat);
  modify_state
    (setUserPin
       (VObj (<["latitude" := latitude]> (<["longitude" := longitude]> ∅)))).

(** *** The marker button's [onClick] (lines 200-203) *)

(** The part of the click event the handler touches. *)
Record ClickEvent : Type := mkClickEvent { defaultPrevented : bool }.

Definition preventDefault (evt : ClickEvent) : ClickEvent := mkClickEvent true.

(** Returns the event as the handler leaves it. *)
Definition marker_onClick (park : value) (evt : ClickEvent) : M ClickEvent :=
  let evt := preventDefault evt in
  _ ← modify_state (setSelectedPark park);
  ret evt.

(** What the handlers take from their surroundings. *)
Record Env : Type := mkEnv {
  (* The two services: what a request answers may depend on the requests
     made before it. *)
  net : list string → string → fetch_outcome;
  (* The text [${import.meta.env.VITE_MAPBOX_TOKEN}] and
     [${process.env.VITE_MAPBOX_TOKEN}] expand to.  Rendering the component
     reads [process.env] too (line 185), so it is defined wherever a handler
     runs. *)
  import_meta_env_token : string;
  process_env_token : string;
  (* Number::toString and StringToNumber, see [JS.join] and [JS.gt_zero]. *)
  number_to_string : float → string;
  string_to_number : string → float;
}.

Section Handlers.

Variable env : Env.

(** [await fetch(url)]. *)
Definition fetch (url : string) : M Response :=
  λ w,
    let w' := mkWorld (app w) (requests w ++ [url]) (console w) in
    match net env (requests w) url with
    | Rejected => (Throw FetchRejected, w')
    | Resolved r => (Ok r, w')
    end.

(** *** geocodeLocation (lines 64-83) *)

Definition geocoding_endpoint : string :=
  "https://api.mapbox.com/geocoding/v5/mapbox.places/".

Definition geocode_url (location : string) : string :=
  geocoding_endpoint +:+ location +:+ ".json?access_token="
    +:+ import_meta_env_token env.

(** [data.features && data.features.length > 0] as a condition. *)
Definition has_features (data : value) : res bool :=
  features ← get data "features";
  if truthy features then
    features ← get data "features";
    length_gt_zero (number_to_string env) (string_to_number env) features
  else Ok false.

(** [data.features[0].geometry.coordinates]. *)
Definition first_feature_coordinates (data : value) : res value :=
  features ← get data "features";
  first ← get0 features;
  geometry ← get first "geometry";
  get geometry "coordinates".

Definition geocodeLocation (location : string) : M value :=
  try_catch
    (response ← fetch (geocode_url location);
     data ← json response;
     found ← lift (has_features data);
     if found : bool then
       logged ← lift (first_feature_coordinates data);
       _ ← console_log ("Geocoded " +:+ location +:+ ":") [inl logged];
       lift (first_feature_coordinates data)
     else
       _ ← console_error ("No results found for location: " +:+ location) [];
       ret VNull)
    (λ error,
       _ ← console_error
             ("Error fetching geocode for location: " +:+ location)
             [inr error];
       ret VNull).

(** *** fetchRoute (lines 130-157) *)

Definition directions_endpoint : string :=
  "https://api.mapbox.com/directions/v5/mapbox/driving/".

Definition directions_url (start_joined end_joined : string) : string :=
  directions_endpoint +:+ start_joined +:+ ";" +:+ end_joined
    +:+ "?geometries=geojson&access_token=" +:+ process_env_token env.

(** [data.routes[0].geometry]. *)
Definition first_route_geometry (data : value) : res value :=
  routes ← get data "routes";
  first ← get0 routes;
  get first "geometry".

Definition fetchRoute : M () :=
  s ← read_state;
  if truthy (VStr (startLocation s)) && truthy (VStr (endLocation s)) then
    try_catch
      (startCoords ← geocodeLocation (startLocation s);
       endCoords ← geocodeLocation (endLocation s);
       if truthy startCoords && truthy endCoords then
         start_joined ← lift (call_join (number_to_string env) startCoords);
         end_joined ← lift (call_join (number_to_string env) endCoords);
         res ← fetch (directions_url start_joined end_joined);
         if ok res then
           data ← json res;
           geometry ← lift (first_route_geometry data);
           modify_state (setRoute geometry)
         else
           errorData ← json res;
           console_error "Error fetching route:" [inl errorData]
       else
         console_error "Geocoding failed for one or both locations." [])
      (λ error,
         console_error "Error in geocoding or fetching route:" [inr error])
  else ret ().

End Handlers.


(** ** Observing the requests of a run *)

(** The requests a computation adds to the ones made before it started. *)
Definition issued {A} (m : M A) (w : World) : list string :=
  drop (length (requests w)) (requests (exec m w)).

Fixpoint starts_with (p s : string) : bool :=
  match p, s with
  | EmptyString, _ => true
  | String a p', String b s' => Ascii.eqb a b && starts_with p' s'
  | String _ _, EmptyString => false
  end.

(** A request goes to the directions service when its URL starts with the
    service's endpoint. *)
Definition is_directions_request (url : string) : bool :=
  starts_with directions_endpoint url.

(** ** Sample runs *)

Module Sample.

(** Ottawa and Toronto geocode to one candidate each, Atlantis to none, the
    answer for Garbled is not JSON and any other place gets no answer; what
    the directions service answers is left open, [env] has it answer with
    one route. *)
Definition ottawa : value := VArr [VNum (-75.69); VNum 45.42].
Definition toronto : value := VArr [VNum (-79.38); VNum 43.65].

Definition candidates (coordinates : value) : value :=
  VObj {[ "features" :=
            VArr [VObj {[ "geometry" := VObj {[ "coordinates" := coordinates ]} ]}] ]}.

Definition line : value :=
  VObj (<["type" := VStr "LineString"]>
          {[ "coordinates" := VArr [ottawa; toronto] ]}).

Definition routes : value :=
  VObj {[ "routes" := VArr [VObj {[ "geometry" := line ]}] ]}.

Definition show (n : float) : string :=
  if PrimFloat.eqb n (-75.69) then "-75.69"
  else if PrimFloat.eqb n 45.42 then "45.42"
  else if PrimFloat.eqb n (-79.38) then "-79.38"
  else if PrimFloat.eqb n 43.65 then "43.65"
  else "0".

Definition answers (directions : fetch_outcome) (sent : list string)
    (url : string) : fetch_outcome :=
  if String.eqb url "https://api.mapbox.com/geocoding/v5/mapbox.places/Ottawa.json?access_token=pk"
  then Resolved (mkResponse true (Some (candidates ottawa)))
  else if String.eqb url "https://api.mapbox.com/geocoding/v5/mapbox.places/Toronto.json?access_token=pk"
  then Resolved (mkResponse true (Some (candidates toronto)))
  else if String.eqb url "https://api.mapbox.com/geocoding/v5/mapbox.places/Atlantis.json?access_token=pk"
  then Resolved (mkResponse true (Some (VObj {[ "features" := VArr [] ]})))
  else if String.eqb url "https://api.mapbox.com/geocoding/v5/mapbox.places/Garbled.json?access_token=pk"
  then Resolved (mkResponse true None)
  else if is_directions_request url
  then directions
  else Rejected.

Definition env_with (directions : fetch_outcome) : Env :=
  mkEnv (answers directions) "pk" "pk" show (λ _, PrimFloat.nan).

Definition env : Env := env_with (Resolved (mkResponse true (Some routes))).

Definition world (start finish : string) : World :=
  mkWorld (mkState (viewport initial_state) VNull VNull start finish VNull) [] [].

End Sample.

(** Further answers of the geocoding service, for the edges of
    [geocodeLocation] and [fetchRoute]: a candidate without [coordinates]
    (Vague), a candidate without [geometry] (Broken), an error status with a
    JSON message (Denied), [coordinates] that is a string (Texty) and
    [coordinates] that is the empty array (Blank). *)
Module Edge.

Definition denied : value := VObj {[ "message" := VStr "Not Authorized" ]}.

Definition answers (directions : fetch_outcome) (sent : list string)
    (url : string) : fetch_outcome :=
  if String.eqb url "https://api.mapbox.com/geocoding/v5/mapbox.places/Toronto.json?access_token=pk"
  then Resolved (mkResponse true (Some (Sample.candidates Sample.toronto)))
  else if String.eqb url "https://api.mapbox.com/geocoding/v5/mapbox.places/Vague.json?access_token=pk"
  then Resolved
         (mkResponse true
            (Some (VObj {[ "features" :=
                             VArr [VObj {[ "geometry" :=
                                             VObj {[ "type" := VStr "Point" ]} ]}] ]})))
  else if String.eqb url "https://api.mapbox.com/geocoding/v5/mapbox.places/Broken.json?access_token=pk"
  then Resolved
         (mkResponse true
            (Some (VObj {[ "features" :=
                             VArr [VObj {[ "id" := VStr "place.1" ]}] ]})))
  else if String.eqb url "https://api.mapbox.com/geocoding/v5/mapbox.places/Denied.json?access_token=pk"
  then Resolved (mkResponse false (Some denied))
  else if String.eqb url "https://api.mapbox.com/geocoding/v5/mapbox.places/Texty.json?access_token=pk"
  then Resolved (mkResponse true (Some (Sample.candidates (VStr "here"))))
  else if String.eqb url "https://api.mapbox.com/geocoding/v5/mapbox.places/Blank.json?access_token=pk"
  then Resolved (mkResponse true (Some (Sample.candidates (VArr []))))
  else if is_directions_request url
  then directions
  else Rejected.

Definition env_with (directions : fetch_outcome) : Env :=
  mkEnv (answers directions) "pk" "pk" Sample.show (λ _, PrimFloat.nan).

Definition env : Env :=
  env_with (Resolved (mkResponse true (Some Sample.routes))).

End Edge.

(** ** Properties *)

Section Properties.

Variable env : Env.

Lemma truthy_string (s : string) : truthy (VStr s) = false ↔ s = "".
Proof.
  unfold truthy. destruct (String.eqb_spec s ""); simpl; split; congruence.
Qed.

Lemma fetchRoute_skips_empty_input (w : World) :
  startLocation (app w) = "" ∨ endLocation (app w) = "" →
  fetchRoute env w = (Ok (), w).
Proof.
  intros Hempty.
  unfold fetchRoute, mbind, M_mbind, bind, read_state.
  destruct Hempty as [H | H]; apply truthy_string in H; rewrite H.
  - reflexivity.
  - rewrite andb_false_r. reflexivity.
Qed.

(** C2. When [startLocation] or [endLocation] is the empty string,
    [fetchRoute] completes without doing anything: the world after it (state,
    requests made, console) is the world before it, so no request was issued
    and [route] is what it was. *)
Theorem fetchRoute_empty_input_noop (w : World) :
  startLocation (app w) = "" ∨ endLocation (app w) = "" →
  fetchRoute env w = (Ok (), w)
  ∧ issued (fetchRoute env) w = []
  ∧ route (app (exec (fetchRoute env) w)) = route (app w).
Proof.
  intros Hempty.
  pose proof (fetchRoute_skips_empty_input w Hempty) as Hrun.
  unfold issued, exec. rewrite Hrun. simpl.
  rewrite drop_all. auto.
Qed.

(** *** geocodeLocation *)

Ltac run :=
  unfold geocodeLocation, fetchRoute, try_catch, fetch, json, lift, mbind,
    M_mbind, bind, mret, M_mret, ret, read_state, modify_state, console_log,
    console_error; simpl.

(** Every call makes one request, writes one line to the console, leaves the
    component state alone and completes normally. *)
Lemma geocodeLocation_run (location : string) (w : World) :
  ∃ (v : value) (entry : console_entry),
    geocodeLocation env location w
    = (Ok v, mkWorld (app w) (requests w ++ [geocode_url env location])
                     (console w ++ [entry])).
Proof.
  run.
  destruct (net env (requests w) (geocode_url env location)) as [|[okay [data|]]];
    simpl; eauto.
  destruct (has_features env data) as [[|]|]; simpl; eauto.
  destruct (first_feature_coordinates data); simpl; eauto.
Qed.

Lemma geocodeLocation_app location w v w' :
  geocodeLocation env location w = (Ok v, w') → app w' = app w.
Proof.
  destruct (geocodeLocation_run location w) as (v0 & entry & Hrun).
  rewrite Hrun. intros [= _ <-]. reflexivity.
Qed.

Lemma geocodeLocation_requests location w v w' :
  geocodeLocation env location w = (Ok v, w') →
  requests w' = requests w ++ [geocode_url env location].
Proof.
  destruct (geocodeLocation_run location w) as (v0 & entry & Hrun).
  rewrite Hrun. intros [= _ <-]. reflexivity.
Qed.

(** C4. What [geocodeLocation] returns, for every place name and every world:
    - when the answer lists at least one candidate and the first one has
      coordinates [lon, lat], that pair;
    - when the list of candidates is empty, [null];
    - when the request fails ([fetch] rejects), [null], after logging the error;
    - when the answer cannot be parsed ([json()] rejects), [null], after
      logging the error;
    - in every case it completes normally: nothing is thrown to the caller. *)
Theorem geocodeLocation_result (location : string) (w : World) :
  let answer := net env (requests w) (geocode_url env location) in
  let failure error :=
    ConsoleError ("Error fetching geocode for location: " +:+ location)
                 [inr error] in
  (∀ okay props first rest geometry lon lat,
      answer = Resolved (mkResponse okay (Some (VObj props))) →
      props !! "features" = Some (VArr (VObj first :: rest)) →
      first !! "geometry" = Some (VObj geometry) →
      geometry !! "coordinates" = Some (VArr [VNum lon; VNum lat]) →
      completion (geocodeLocation env location) w
      = Ok (VArr [VNum lon; VNum lat]))
  ∧ (∀ okay props,
      answer = Resolved (mkResponse okay (Some (VObj props))) →
      props !! "features" = Some (VArr []) →
      completion (geocodeLocation env location) w = Ok VNull)
  ∧ (answer = Rejected →
      completion (geocodeLocation env location) w = Ok VNull
      ∧ console (exec (geocodeLocation env location) w)
        = console w ++ [failure FetchRejected])
  ∧ (∀ okay,
      answer = Resolved (mkResponse okay None) →
      completion (geocodeLocation env location) w = Ok VNull
      ∧ console (exec (geocodeLocation env location) w)
        = console w ++ [failure JsonRejected])
  ∧ (∃ v, completion (geocodeLocation env location) w = Ok v).
Proof.
  cbv zeta. split; [|split; [|split; [|split]]].
  - intros okay props first rest geometry lon lat Hnet Hfs Hg Hc.
    unfold completion. run. rewrite Hnet. simpl.
    unfold has_features, first_feature_coordinates. simpl.
    rewrite Hfs. simpl. rewrite Hg. simpl. rewrite Hc. reflexivity.
  - intros okay props Hnet Hfs.
    unfold completion. run. rewrite Hnet. simpl.
    unfold has_features. simpl. rewrite Hfs. reflexivity.
  - intros Hnet. unfold completion, exec. run. rewrite Hnet. split; reflexivity.
  - intros okay Hnet. unfold completion, exec. run. rewrite Hnet.
    split; reflexivity.
  - destruct (geocodeLocation_run location w) as (v & entry & Hrun).
    exists v. unfold completion. rewrite Hrun. reflexivity.
Qed.

(** *** fetchRoute *)

Lemma truthy_nonempty (s : string) : s ≠ "" → truthy (VStr s) = true.
Proof.
  intros Hs. destruct (truthy (VStr s)) eqn:E; [reflexivity|].
  apply truthy_string in E. contradiction.
Qed.

Lemma starts_with_app (p s : string) : starts_with p (p +:+ s) = true.
Proof.
  induction p as [|a p IH]; simpl; [reflexivity|].
  rewrite Ascii.eqb_refl. exact IH.
Qed.

Lemma directions_url_is_directions (a b : string) :
  is_directions_request (directions_url env a b) = true.
Proof.
  unfold is_directions_request, directions_url.
  apply starts_with_app.
Qed.

Lemma geocode_url_not_directions (location : string) :
  is_directions_request (geocode_url env location) = false.
Proof. reflexivity. Qed.

(** The first steps of [fetchRoute] on two non-empty inputs: both places are
    geocoded, one after the other, whatever the first one gives. *)
Lemma fetchRoute_geocodes (w w1 w2 : World) (v1 v2 : value) :
  startLocation (app w) ≠ "" →
  endLocation (app w) ≠ "" →
  geocodeLocation env (startLocation (app w)) w = (Ok v1, w1) →
  geocodeLocation env (endLocation (app w)) w1 = (Ok v2, w2) →
  app w2 = app w
  ∧ requests w2
    = requests w ++ [geocode_url env (startLocation (app w));
                     geocode_url env (endLocation (app w))].
Proof.
  intros _ _ H1 H2.
  rewrite (geocodeLocation_app _ _ _ _ H2), (geocodeLocation_app _ _ _ _ H1).
  rewrite (geocodeLocation_requests _ _ _ _ H2),
          (geocodeLocation_requests _ _ _ _ H1).
  rewrite <- app_assoc. auto.
Qed.

Ltac start_fetchRoute Hs He H1 H2 :=
  unfold fetchRoute, try_catch, mbind, M_mbind, bind, read_state;
  rewrite (truthy_nonempty _ Hs), (truthy_nonempty _ He); simpl;
  rewrite H1, H2.

(** What [fetchRoute] does once both places have geocoded to arrays that
    [join] can print: one request to the directions service, then the branch
    the answer selects. *)
Lemma fetchRoute_after_geocoding (w w1 w2 : World) (c1 c2 : list value)
    (s1 s2 : string) :
  startLocation (app w) ≠ "" →
  endLocation (app w) ≠ "" →
  geocodeLocation env (startLocation (app w)) w = (Ok (VArr c1), w1) →
  geocodeLocation env (endLocation (app w)) w1 = (Ok (VArr c2), w2) →
  join (number_to_string env) c1 = Ok s1 →
  join (number_to_string env) c2 = Ok s2 →
  let url := directions_url env s1 s2 in
  let sent := mkWorld (app w) (requests w2 ++ [url]) (console w2) in
  let caught error :=
    mkWorld (app w) (requests w2 ++ [url])
      (console w2
       ++ [ConsoleError "Error in geocoding or fetching route:" [inr error]]) in
  fetchRoute env w
  = (Ok (),
     match net env (requests w2) url with
     | Rejected => caught FetchRejected
     | Resolved (mkResponse true (Some data)) =>
         match first_route_geometry data with
         | Ok geometry =>
             mkWorld (setRoute geometry (app w)) (requests w2 ++ [url])
                     (console w2)
         | Throw error => caught error
         end
     | Resolved (mkResponse false (Some errorData)) =>
         mkWorld (app w) (requests w2 ++ [url])
           (console w2
            ++ [ConsoleError "Error fetching route:" [inl errorData]])
     | Resolved (mkResponse _ None) => caught JsonRejected
     end).
Proof.
  intros Hs He H1 H2 Hj1 Hj2 url sent caught.
  destruct (fetchRoute_geocodes _ _ _ _ _ Hs He H1 H2) as [Happ _].
  start_fetchRoute Hs He H1 H2.
  unfold lift, fetch, json, modify_state, console_error, call_join. simpl.
  rewrite Hj1, Hj2. simpl. fold url. rewrite Happ.
  destruct (net env (requests w2) url) as [|[[|] [data|]]]; simpl;
    try reflexivity.
  destruct (first_route_geometry data); reflexivity.
Qed.

Lemma fetchRoute_after_geocoding_requests (w w1 w2 : World)
    (c1 c2 : list value) (s1 s2 : string) :
  startLocation (app w) ≠ "" →
  endLocation (app w) ≠ "" →
  geocodeLocation env (startLocation (app w)) w = (Ok (VArr c1), w1) →
  geocodeLocation env (endLocation (app w)) w1 = (Ok (VArr c2), w2) →
  join (number_to_string env) c1 = Ok s1 →
  join (number_to_string env) c2 = Ok s2 →
  issued (fetchRoute env) w
  = [geocode_url env (startLocation (app w));
     geocode_url env (endLocation (app w));
     directions_url env s1 s2].
Proof.
  intros Hs He H1 H2 Hj1 Hj2.
  destruct (fetchRoute_geocodes _ _ _ _ _ Hs He H1 H2) as [_ Hreq].
  assert (Hsent : requests (exec (fetchRoute env) w)
                  = requests w2 ++ [directions_url env s1 s2]).
  { unfold exec.
    rewrite (fetchRoute_after_geocoding _ _ _ _ _ _ _ Hs He H1 H2 Hj1 Hj2).
    simpl.
    destruct (net env (requests w2) (directions_url env s1 s2))
      as [|[[|] [data|]]]; try reflexivity.
    destruct (first_route_geometry data); reflexivity. }
  unfold issued. rewrite Hsent, Hreq, <- app_assoc.
  apply drop_app_length.
Qed.

(** C1. Let both inputs be non-empty and let both places geocode to a
    coordinate pair, [lon1, lat1] for the start and [lon2, lat2] for the end.
    Then [fetchRoute] issues three requests, the two geocoding requests and
    one request to the directions service; exactly one of them goes to the
    directions service, and its URL carries the start pair before the end
    pair.  When that request is answered with [ok] and a body whose first
    route has a geometry, [route] becomes that geometry and the rest of the
    state stays as it was. *)
Theorem fetchRoute_requests_route_once_and_commits_it (w w1 w2 : World)
    (lon1 lat1 lon2 lat2 : float) :
  startLocation (app w) ≠ "" →
  endLocation (app w) ≠ "" →
  geocodeLocation env (startLocation (app w)) w
  = (Ok (VArr [VNum lon1; VNum lat1]), w1) →
  geocodeLocation env (endLocation (app w)) w1
  = (Ok (VArr [VNum lon2; VNum lat2]), w2) →
  let show := number_to_string env in
  let url :=
    directions_url env (show lon1 +:+ "," +:+ show lat1)
                       (show lon2 +:+ "," +:+ show lat2) in
  issued (fetchRoute env) w
  = [geocode_url env (startLocation (app w));
     geocode_url env (endLocation (app w)); url]
  ∧ List.filter is_directions_request (issued (fetchRoute env) w) = [url]
  ∧ (∀ props first rest geometry,
        net env (requests w2) url
        = Resolved (mkResponse true (Some (VObj props))) →
        props !! "routes" = Some (VArr (VObj first :: rest)) →
        first !! "geometry" = Some geometry →
        route (app (exec (fetchRoute env) w)) = geometry
        ∧ app (exec (fetchRoute env) w) = setRoute geometry (app w)).
Proof.
  intros Hs He H1 H2 show url.
  assert (Hj1 : join show [VNum lon1; VNum lat1]
                = Ok (show lon1 +:+ "," +:+ show lat1)) by reflexivity.
  assert (Hj2 : join show [VNum lon2; VNum lat2]
                = Ok (show lon2 +:+ "," +:+ show lat2)) by reflexivity.
  pose proof (fetchRoute_after_geocoding_requests
                _ _ _ _ _ _ _ Hs He H1 H2 Hj1 Hj2) as Hissued.
  fold url in Hissued.
  split; [exact Hissued|]. split.
  - rewrite Hissued. cbn [List.filter].
    rewrite !geocode_url_not_directions.
    unfold url. rewrite directions_url_is_directions. reflexivity.
  - intros props first rest geometry Hnet Hroutes Hgeometry.
    unfold exec.
    rewrite (fetchRoute_after_geocoding _ _ _ _ _ _ _ Hs He H1 H2 Hj1 Hj2).
    fold url. rewrite Hnet. simpl.
    unfold first_route_geometry. simpl.
    rewrite Hroutes. simpl. rewrite Hgeometry. split; reflexivity.
Qed.

(** C3. Let both inputs be non-empty and let the geocoding of the start or of
    the end give [null].  Then [fetchRoute] completes normally without any
    request to the directions service (the only requests are the two
    geocoding requests), writes the failure to the console and leaves the
    component state as it was. *)
Theorem fetchRoute_aborts_when_not_found (w w1 w2 : World) (v1 v2 : value) :
  startLocation (app w) ≠ "" →
  endLocation (app w) ≠ "" →
  geocodeLocation env (startLocation (app w)) w = (Ok v1, w1) →
  geocodeLocation env (endLocation (app w)) w1 = (Ok v2, w2) →
  v1 = VNull ∨ v2 = VNull →
  completion (fetchRoute env) w = Ok ()
  ∧ List.filter is_directions_request (issued (fetchRoute env) w) = []
  ∧ issued (fetchRoute env) w
    = [geocode_url env (startLocation (app w));
       geocode_url env (endLocation (app w))]
  ∧ console (exec (fetchRoute env) w)
    = console w2
      ++ [ConsoleError "Geocoding failed for one or both locations." []]
  ∧ app (exec (fetchRoute env) w) = app w.
Proof.
  intros Hs He H1 H2 Hnull.
  destruct (fetchRoute_geocodes _ _ _ _ _ Hs He H1 H2) as [Happ Hreq].
  assert (Hfalsy : truthy v1 && truthy v2 = false).
  { destruct Hnull as [-> | ->]; [reflexivity | apply andb_false_r]. }
  assert (Hrun : fetchRoute env w
                 = (Ok (),
                    mkWorld (app w2) (requests w2)
                      (console w2
                       ++ [ConsoleError
                             "Geocoding failed for one or both locations."
                             []]))).
  { start_fetchRoute Hs He H1 H2. rewrite Hfalsy. reflexivity. }
  assert (Hissued : issued (fetchRoute env) w
                    = [geocode_url env (startLocation (app w));
                       geocode_url env (endLocation (app w))]).
  { unfold issued, exec. rewrite Hrun. simpl. rewrite Hreq.
    apply drop_app_length. }
  unfold completion, exec in *. rewrite Hissued, Hrun.
  cbn [List.filter fst snd console app].
  rewrite !geocode_url_not_directions. auto.
Qed.

(** C5, as amended.  Let the request to the directions service be made (both
    inputs non-empty, both places geocoded to arrays that [join] prints) and
    be answered with a status that is not a success.  Then [fetchRoute]
    makes no second request to the directions service and leaves [route]
    (and the rest of the state) as it was.  What it logs depends on the body:
    a body that parses as JSON is logged under "Error fetching route:"; for
    a body that does not parse, [json()] rejects and the surrounding [catch]
    logs that error instead of the body. *)
Theorem fetchRoute_http_failure (w w1 w2 : World) (c1 c2 : list value)
    (s1 s2 : string) (response : Response) :
  startLocation (app w) ≠ "" →
  endLocation (app w) ≠ "" →
  geocodeLocation env (startLocation (app w)) w = (Ok (VArr c1), w1) →
  geocodeLocation env (endLocation (app w)) w1 = (Ok (VArr c2), w2) →
  join (number_to_string env) c1 = Ok s1 →
  join (number_to_string env) c2 = Ok s2 →
  net env (requests w2) (directions_url env s1 s2) = Resolved response →
  ok response = false →
  console (exec (fetchRoute env) w)
  = console w2
    ++ [match body response with
        | Some errorData =>
            ConsoleError "Error fetching route:" [inl errorData]
        | None =>
            ConsoleError "Error in geocoding or fetching route:"
                         [inr JsonRejected]
        end]
  ∧ List.filter is_directions_request (issued (fetchRoute env) w)
    = [directions_url env s1 s2]
  ∧ route (app (exec (fetchRoute env) w)) = route (app w)
  ∧ app (exec (fetchRoute env) w) = app w.
Proof.
  intros Hs He H1 H2 Hj1 Hj2 Hnet Hok.
  pose proof (fetchRoute_after_geocoding_requests
                _ _ _ _ _ _ _ Hs He H1 H2 Hj1 Hj2) as Hissued.
  pose proof (fetchRoute_after_geocoding
                _ _ _ _ _ _ _ Hs He H1 H2 Hj1 Hj2) as Hrun.
  cbv zeta in Hrun. rewrite Hnet in Hrun.
  destruct response as [okay payload]. simpl in Hok. subst okay.
  rewrite Hissued. cbn [List.filter].
  rewrite !geocode_url_not_directions, directions_url_is_directions.
  unfold exec. rewrite Hrun.
  destruct payload as [errorData|]; simpl; auto.
Qed.

(** C8. Let the request to the directions service be made and be answered
    with [ok] and a body whose [routes] is the empty array.  Reading the
    geometry of the first route then throws a TypeError; [fetchRoute]
    catches it, logs it and completes normally, and [route] (with the rest of
    the state) is what it was. *)
Theorem fetchRoute_no_route_candidates (w w1 w2 : World) (c1 c2 : list value)
    (s1 s2 : string) (props : gmap string value) :
  startLocation (app w) ≠ "" →
  endLocation (app w) ≠ "" →
  geocodeLocation env (startLocation (app w)) w = (Ok (VArr c1), w1) →
  geocodeLocation env (endLocation (app w)) w1 = (Ok (VArr c2), w2) →
  join (number_to_string env) c1 = Ok s1 →
  join (number_to_string env) c2 = Ok s2 →
  net env (requests w2) (directions_url env s1 s2)
  = Resolved (mkResponse true (Some (VObj props))) →
  props !! "routes" = Some (VArr []) →
  first_route_geometry (VObj props)
  = Throw (TypeError "Cannot read properties of undefined")
  ∧ completion (fetchRoute env) w = Ok ()
  ∧ console (exec (fetchRoute env) w)
    = console w2
      ++ [ConsoleError "Error in geocoding or fetching route:"
            [inr (TypeError "Cannot read properties of undefined")]]
  ∧ route (app (exec (fetchRoute env) w)) = route (app w)
  ∧ app (exec (fetchRoute env) w) = app w.
Proof.
  intros Hs He H1 H2 Hj1 Hj2 Hnet Hroutes.
  assert (Hfault : first_route_geometry (VObj props)
                   = Throw (TypeError "Cannot read properties of undefined")).
  { unfold first_route_geometry. simpl. rewrite Hroutes. reflexivity. }
  pose proof (fetchRoute_after_geocoding
                _ _ _ _ _ _ _ Hs He H1 H2 Hj1 Hj2) as Hrun.
  cbv zeta in Hrun. rewrite Hnet, Hfault in Hrun.
  unfold completion, exec. rewrite Hrun. simpl. auto.
Qed.

(** Whatever the inputs and the services do, [fetchRoute] completes normally,
    and the state it leaves differs from the one it found in [route] at most. *)
Lemma fetchRoute_run (w : World) :
  ∃ w', fetchRoute env w = (Ok (), w')
        ∧ (app w' = app w ∨ ∃ geometry, app w' = setRoute geometry (app w)).
Proof.
  destruct (truthy (VStr (startLocation (app w)))) eqn:Es;
    [destruct (truthy (VStr (endLocation (app w)))) eqn:Ee|].
  - assert (Hs : startLocation (app w) ≠ "").
    { intros Heq. apply truthy_string in Heq. congruence. }
    assert (He : endLocation (app w) ≠ "").
    { intros Heq. apply truthy_string in Heq. congruence. }
    destruct (geocodeLocation_run (startLocation (app w)) w)
      as (v1 & entry1 & H1).
    set (w1 := mkWorld _ _ _) in H1.
    destruct (geocodeLocation_run (endLocation (app w)) w1)
      as (v2 & entry2 & H2).
    set (w2 := mkWorld _ _ _) in H2.
    start_fetchRoute Hs He H1 H2.
    unfold lift, fetch, json, modify_state, console_error.
    destruct (truthy v1 && truthy v2); simpl; [|eauto].
    destruct (call_join (number_to_string env) v1) as [s1|]; simpl; [|eauto].
    destruct (call_join (number_to_string env) v2) as [s2|]; simpl; [|eauto].
    destruct (net env _ _) as [|[[|] [data|]]]; simpl; eauto.
    destruct (first_route_geometry data); simpl; eauto.
  - exists w. split; [|auto].
    apply fetchRoute_skips_empty_input. right. apply truthy_string, Ee.
  - exists w. split; [|auto].
    apply fetchRoute_skips_empty_input. left. apply truthy_string, Es.
Qed.

(** C9. Whatever the inputs and the services do, the state [fetchRoute] leaves
    has the [viewport], [userPin], [selectedPark], [startLocation] and
    [endLocation] it found: only [route] can differ. *)
Theorem fetchRoute_frame (w : World) :
  let after := app (exec (fetchRoute env) w) in
  viewport after = viewport (app w)
  ∧ userPin after = userPin (app w)
  ∧ selectedPark after = selectedPark (app w)
  ∧ startLocation after = startLocation (app w)
  ∧ endLocation after = endLocation (app w).
Proof.
  destruct (fetchRoute_run w) as (w' & Hrun & [Happ | [geometry Happ]]);
    unfold exec; rewrite Hrun; simpl; rewrite Happ; auto.
Qed.

(** *** Further properties of geocodeLocation *)

(** X1. Every call of [geocodeLocation] issues exactly one request, to the
    geocoding URL of the place and never to the directions service, writes
    exactly one line to the console and leaves the component state alone. *)
Theorem geocodeLocation_one_request_one_line (location : string) (w : World) :
  issued (geocodeLocation env location) w = [geocode_url env location]
  ∧ List.filter is_directions_request (issued (geocodeLocation env location) w)
    = []
  ∧ app (exec (geocodeLocation env location) w) = app w
  ∧ ∃ entry,
      console (exec (geocodeLocation env location) w) = console w ++ [entry].
Proof.
  destruct (geocodeLocation_run location w) as (v & entry & Hrun).
  unfold issued, exec. rewrite Hrun. cbn [snd requests app console].
  rewrite drop_app_length. cbn [List.filter].
  rewrite geocode_url_not_directions. eauto.
Qed.

(** X2. An answer that is a JSON object without [features], whatever its HTTP
    status (an error message of the service, for one), is reported as "No
    results found" and gives [null]. *)
Theorem geocodeLocation_without_features (location : string) (w : World)
    (okay : bool) (props : gmap string value) :
  net env (requests w) (geocode_url env location)
  = Resolved (mkResponse okay (Some (VObj props))) →
  props !! "features" = None →
  geocodeLocation env location w
  = (Ok VNull,
     mkWorld (app w) (requests w ++ [geocode_url env location])
       (console w
        ++ [ConsoleError ("No results found for location: " +:+ location) []])).
Proof.
  intros Hnet Hnone. run. rewrite Hnet. simpl.
  unfold has_features. simpl. rewrite Hnone. reflexivity.
Qed.

(** X3. When the first candidate is an object without [geometry], reading its
    coordinates throws; [geocodeLocation] catches the TypeError, logs it under
    "Error fetching geocode for location" and gives [null]. *)
Theorem geocodeLocation_candidate_without_geometry (location : string)
    (w : World) (okay : bool) (props first : gmap string value)
    (rest : list value) :
  net env (requests w) (geocode_url env location)
  = Resolved (mkResponse okay (Some (VObj props))) →
  props !! "features" = Some (VArr (VObj first :: rest)) →
  first !! "geometry" = None →
  geocodeLocation env location w
  = (Ok VNull,
     mkWorld (app w) (requests w ++ [geocode_url env location])
       (console w
        ++ [ConsoleError ("Error fetching geocode for location: " +:+ location)
              [inr (TypeError "Cannot read properties of undefined")]])).
Proof.
  intros Hnet Hfeatures Hnone. run. rewrite Hnet. simpl.
  unfold has_features, first_feature_coordinates. simpl.
  rewrite Hfeatures. simpl. rewrite Hnone. reflexivity.
Qed.

(** X4. When the first candidate has a [geometry] object without
    [coordinates], [geocodeLocation] returns [undefined], not [null], and logs
    the place as geocoded. *)
Theorem geocodeLocation_candidate_without_coordinates (location : string)
    (w : World) (okay : bool) (props first geometry : gmap string value)
    (rest : list value) :
  net env (requests w) (geocode_url env location)
  = Resolved (mkResponse okay (Some (VObj props))) →
  props !! "features" = Some (VArr (VObj first :: rest)) →
  first !! "geometry" = Some (VObj geometry) →
  geometry !! "coordinates" = None →
  geocodeLocation env location w
  = (Ok VUndefined,
     mkWorld (app w) (requests w ++ [geocode_url env location])
       (console w
        ++ [ConsoleLog ("Geocoded " +:+ location +:+ ":") [inl VUndefined]])).
Proof.
  intros Hnet Hfeatures Hgeometry Hnone. run. rewrite Hnet. simpl.
  unfold has_features, first_feature_coordinates. simpl.
  rewrite Hfeatures. simpl. rewrite Hgeometry. simpl. rewrite Hnone.
  reflexivity.
Qed.

(** *** Further properties of fetchRoute *)

(** The ways [fetchRoute] can end on two non-empty inputs, seen from the world
    [w2] the two geocoding calls leave: the route is committed and nothing
    more is logged, or the state is kept and one error line is written; the
    directions service is asked at most once. *)
Lemma fetchRoute_nonempty_cases (w : World) :
  startLocation (app w) ≠ "" →
  endLocation (app w) ≠ "" →
  let w1 := exec (geocodeLocation env (startLocation (app w))) w in
  let w2 := exec (geocodeLocation env (endLocation (app w))) w1 in
  requests w2
  = requests w ++ [geocode_url env (startLocation (app w));
                   geocode_url env (endLocation (app w))]
  ∧ ∃ w',
      fetchRoute env w = (Ok (), w')
      ∧ ((∃ geometry s1 s2 data,
             net env (requests w2) (directions_url env s1 s2)
             = Resolved (mkResponse true (Some data))
             ∧ first_route_geometry data = Ok geometry
             ∧ app w' = setRoute geometry (app w)
             ∧ console w' = console w2
             ∧ requests w' = requests w2 ++ [directions_url env s1 s2])
         ∨ (∃ msg args,
               app w' = app w
               ∧ console w' = console w2 ++ [ConsoleError msg args]
               ∧ (requests w' = requests w2
                  ∨ ∃ s1 s2,
                      requests w' = requests w2 ++ [directions_url env s1 s2]))).
Proof.
  intros Hs He w1 w2.
  destruct (geocodeLocation_run (startLocation (app w)) w)
    as (v1 & entry1 & H1).
  assert (Hw1 : w1 = mkWorld (app w)
                       (requests w ++ [geocode_url env (startLocation (app w))])
                       (console w ++ [entry1])).
  { unfold w1, exec. rewrite H1. reflexivity. }
  destruct (geocodeLocation_run (endLocation (app w)) w1)
    as (v2 & entry2 & H2).
  assert (Hw2 : w2 = mkWorld (app w1)
                       (requests w1 ++ [geocode_url env (endLocation (app w))])
                       (console w1 ++ [entry2])).
  { unfold w2, exec. rewrite H2. reflexivity. }
  rewrite <- Hw2 in H2. rewrite <- Hw1 in H1.
  clearbody w1 w2. clear Hw1 Hw2.
  destruct (fetchRoute_geocodes _ _ _ _ _ Hs He H1 H2) as [Happ Hreq].
  split; [exact Hreq|].
  start_fetchRoute Hs He H1 H2.
  unfold lift, fetch, json, modify_state, console_error.
  destruct (truthy v1 && truthy v2); simpl;
    [|rewrite Happ; eauto 10].
  destruct (call_join (number_to_string env) v1) as [s1|]; simpl;
    [|rewrite Happ; eauto 10].
  destruct (call_join (number_to_string env) v2) as [s2|]; simpl;
    [|rewrite Happ; eauto 10].
  destruct (net env (requests w2) (directions_url env s1 s2))
    as [|[[|] [data|]]] eqn:Hnet; simpl; rewrite Happ;
    [eauto 12 | | eauto 12 ..].
  destruct (first_route_geometry data) as [geometry|error] eqn:Hgeometry;
    simpl; [|eauto 12].
  eexists. split; [reflexivity|]. left.
  exists geometry, s1, s2, data. simpl. auto.
Qed.

(** X5. [fetchRoute] never throws: whatever the inputs are and whatever the
    services answer, every error is caught inside and the call completes. *)
Theorem fetchRoute_never_throws (w : World) :
  completion (fetchRoute env) w = Ok ().
Proof.
  destruct (fetchRoute_run w) as (w' & Hrun & _).
  unfold completion. rewrite Hrun. reflexivity.
Qed.

(** X6. The requests of one call of [fetchRoute] are none, or the two
    geocoding requests (start, then end), or those two followed by one
    request to the directions service: never more than three, never more
    than one to the directions service, and the end is geocoded even when
    the start was not found. *)
Theorem fetchRoute_requests_shape (w : World) :
  let geocoding :=
    [geocode_url env (startLocation (app w));
     geocode_url env (endLocation (app w))] in
  (issued (fetchRoute env) w = []
   ∨ issued (fetchRoute env) w = geocoding
   ∨ ∃ s1 s2,
       issued (fetchRoute env) w = geocoding ++ [directions_url env s1 s2])
  ∧ (length (issued (fetchRoute env) w) ≤ 3)%nat
  ∧ (length (List.filter is_directions_request (issued (fetchRoute env) w))
     ≤ 1)%nat.
Proof.
  intros geocoding.
  assert (Hshape :
            issued (fetchRoute env) w = []
            ∨ issued (fetchRoute env) w = geocoding
            ∨ ∃ s1 s2,
                issued (fetchRoute env) w
                = geocoding ++ [directions_url env s1 s2]).
  { destruct (decide (startLocation (app w) = "")) as [Hs | Hs];
      [|destruct (decide (endLocation (app w) = "")) as [He | He]].
    - left. unfold issued, exec.
      rewrite fetchRoute_skips_empty_input by auto. apply drop_all.
    - left. unfold issued, exec.
      rewrite fetchRoute_skips_empty_input by auto. apply drop_all.
    - right.
      destruct (fetchRoute_nonempty_cases w Hs He)
        as (Hreq & w' & Hrun & Hcases).
      unfold issued, exec. rewrite Hrun. cbn [snd].
      destruct Hcases
        as [(g & s1 & s2 & data & _ & _ & _ & _ & Hsent)
           | (msg & args & _ & _ & [Hsent | (s1 & s2 & Hsent)])];
        rewrite Hsent, Hreq.
      + right. exists s1, s2. rewrite <- app_assoc. apply drop_app_length.
      + left. apply drop_app_length.
      + right. exists s1, s2. rewrite <- app_assoc. apply drop_app_length. }
  split; [exact Hshape|].
  destruct Hshape as [-> | [-> | (s1 & s2 & ->)]]; unfold geocoding;
    cbn [List.app length List.filter];
    rewrite ?geocode_url_not_directions, ?directions_url_is_directions;
    cbn [length]; lia.
Qed.

(** X7. No silent failure: on two non-empty inputs [fetchRoute] ends in one
    of two ways.  Either the directions service was asked once and answered
    [ok] with a body whose [routes[0].geometry] can be read, and then [route]
    holds exactly that value ([undefined] when the first route has no
    geometry) and nothing is logged beyond the two lines of the geocoding
    calls; or the whole component state is as it was and exactly one more
    line, an error, is written. *)
Theorem fetchRoute_commits_or_logs (w : World) :
  startLocation (app w) ≠ "" →
  endLocation (app w) ≠ "" →
  let w2 :=
    exec (geocodeLocation env (endLocation (app w)))
         (exec (geocodeLocation env (startLocation (app w))) w) in
  let after := exec (fetchRoute env) w in
  (∃ geometry s1 s2 data,
      net env (requests w2) (directions_url env s1 s2)
      = Resolved (mkResponse true (Some data))
      ∧ first_route_geometry data = Ok geometry
      ∧ requests after = requests w2 ++ [directions_url env s1 s2]
      ∧ route (app after) = geometry
      ∧ viewport (app after) = viewport (app w)
      ∧ selectedPark (app after) = selectedPark (app w)
      ∧ userPin (app after) = userPin (app w)
      ∧ startLocation (app after) = startLocation (app w)
      ∧ endLocation (app after) = endLocation (app w)
      ∧ console after = console w2)
  ∨ (∃ msg args,
        app after = app w
        ∧ console after = console w2 ++ [ConsoleError msg args]).
Proof.
  intros Hs He w2 after.
  destruct (fetchRoute_nonempty_cases w Hs He) as (_ & w' & Hrun & Hcases).
  unfold after, exec. rewrite Hrun. cbn [snd].
  destruct Hcases
    as [(g & s1 & s2 & data & Hnet & Hgeometry & Happ & Hconsole & Hsent)
       | (msg & args & Happ & Hconsole & _)]; [left | right; eauto].
  exists g, s1, s2, data. rewrite Happ. simpl. auto 12.
Qed.

(** X8. [fetchRoute] aborts on every falsy geocoding result, [undefined] (a
    candidate without coordinates) as well as [null]: when the start or the
    end gives a falsy value, no request goes to the directions service, the
    failure is logged and the component state is left as it was. *)
Theorem fetchRoute_aborts_on_falsy_result (w w1 w2 : World) (v1 v2 : value) :
  startLocation (app w) ≠ "" →
  endLocation (app w) ≠ "" →
  geocodeLocation env (startLocation (app w)) w = (Ok v1, w1) →
  geocodeLocation env (endLocation (app w)) w1 = (Ok v2, w2) →
  truthy v1 = false ∨ truthy v2 = false →
  issued (fetchRoute env) w
  = [geocode_url env (startLocation (app w));
     geocode_url env (endLocation (app w))]
  ∧ console (exec (fetchRoute env) w)
    = console w2
      ++ [ConsoleError "Geocoding failed for one or both locations." []]
  ∧ app (exec (fetchRoute env) w) = app w.
Proof.
  intros Hs He H1 H2 Hfalsy.
  destruct (fetchRoute_geocodes _ _ _ _ _ Hs He H1 H2) as [Happ Hreq].
  assert (Hcond : truthy v1 && truthy v2 = false).
  { destruct Hfalsy as [-> | ->]; [reflexivity | apply andb_false_r]. }
  assert (Hrun : fetchRoute env w
                 = (Ok (),
                    mkWorld (app w2) (requests w2)
                      (console w2
                       ++ [ConsoleError
                             "Geocoding failed for one or both locations."
                             []]))).
  { start_fetchRoute Hs He H1 H2. rewrite Hcond. reflexivity. }
  unfold issued, exec. rewrite Hrun. cbn [snd requests console app].
  rewrite Hreq, drop_app_length. auto.
Qed.

(** X9. Coordinates that are truthy but not an array (a string, a number, an
    object) have no [join]: building the URL throws a TypeError, which
    [fetchRoute] catches and logs; the directions service is not asked and
    the component state is left as it was. *)
Theorem fetchRoute_start_not_an_array (w w1 w2 : World) (v1 v2 : value) :
  startLocation (app w) ≠ "" →
  endLocation (app w) ≠ "" →
  geocodeLocation env (startLocation (app w)) w = (Ok v1, w1) →
  geocodeLocation env (endLocation (app w)) w1 = (Ok v2, w2) →
  truthy v1 = true →
  truthy v2 = true →
  (∀ elems, v1 ≠ VArr elems) →
  issued (fetchRoute env) w
  = [geocode_url env (startLocation (app w));
     geocode_url env (endLocation (app w))]
  ∧ console (exec (fetchRoute env) w)
    = console w2
      ++ [ConsoleError "Error in geocoding or fetching route:"
            [inr (TypeError "join is not a function")]]
  ∧ app (exec (fetchRoute env) w) = app w.
Proof.
  intros Hs He H1 H2 Ht1 Ht2 Hnot.
  destruct (fetchRoute_geocodes _ _ _ _ _ Hs He H1 H2) as [Happ Hreq].
  assert (Hjoin : call_join (number_to_string env) v1
                  = Throw (TypeError "join is not a function")).
  { destruct v1; try reflexivity; try discriminate Ht1.
    exfalso. eapply Hnot. reflexivity. }
  assert (Hrun : fetchRoute env w
                 = (Ok (),
                    mkWorld (app w2) (requests w2)
                      (console w2
                       ++ [ConsoleError "Error in geocoding or fetching route:"
                             [inr (TypeError "join is not a function")]]))).
  { start_fetchRoute Hs He H1 H2. rewrite Ht1, Ht2. unfold lift. simpl.
    rewrite Hjoin. reflexivity. }
  unfold issued, exec. rewrite Hrun. cbn [snd requests console app].
  rewrite Hreq, drop_app_length. auto.
Qed.

(** X10. When the directions service cannot be reached ([fetch] rejects), or
    answers [ok] with a body that is not JSON, the error is logged by the
    [catch], the request is not repeated and the component state is left as
    it was. *)
Theorem fetchRoute_directions_unreachable (w w1 w2 : World)
    (c1 c2 : list value) (s1 s2 : string) :
  startLocation (app w) ≠ "" →
  endLocation (app w) ≠ "" →
  geocodeLocation env (startLocation (app w)) w = (Ok (VArr c1), w1) →
  geocodeLocation env (endLocation (app w)) w1 = (Ok (VArr c2), w2) →
  join (number_to_string env) c1 = Ok s1 →
  join (number_to_string env) c2 = Ok s2 →
  let answer := net env (requests w2) (directions_url env s1 s2) in
  answer = Rejected ∨ answer = Resolved (mkResponse true None) →
  console (exec (fetchRoute env) w)
  = console w2
    ++ [ConsoleError "Error in geocoding or fetching route:"
          [inr (match answer with
                | Rejected => FetchRejected
                | Resolved _ => JsonRejected
                end)]]
  ∧ List.filter is_directions_request (issued (fetchRoute env) w)
    = [directions_url env s1 s2]
  ∧ app (exec (fetchRoute env) w) = app w.
Proof.
  intros Hs He H1 H2 Hj1 Hj2 answer Hanswer.
  pose proof (fetchRoute_after_geocoding_requests
                _ _ _ _ _ _ _ Hs He H1 H2 Hj1 Hj2) as Hissued.
  pose proof (fetchRoute_after_geocoding
                _ _ _ _ _ _ _ Hs He H1 H2 Hj1 Hj2) as Hrun.
  cbv zeta in Hrun. fold answer in Hrun.
  rewrite Hissued. cbn [List.filter].
  rewrite !geocode_url_not_directions, directions_url_is_directions.
  unfold exec. rewrite Hrun.
  destruct Hanswer as [-> | ->]; simpl; auto.
Qed.

(** X11. A first route without [geometry] still counts as a success: [route]
    is set to [undefined], whatever route was stored before, and nothing is
    logged. *)
Theorem fetchRoute_first_route_without_geometry (w w1 w2 : World)
    (c1 c2 : list value) (s1 s2 : string) (props first : gmap string value)
    (rest : list value) :
  startLocation (app w) ≠ "" →
  endLocation (app w) ≠ "" →
  geocodeLocation env (startLocation (app w)) w = (Ok (VArr c1), w1) →
  geocodeLocation env (endLocation (app w)) w1 = (Ok (VArr c2), w2) →
  join (number_to_string env) c1 = Ok s1 →
  join (number_to_string env) c2 = Ok s2 →
  net env (requests w2) (directions_url env s1 s2)
  = Resolved (mkResponse true (Some (VObj props))) →
  props !! "routes" = Some (VArr (VObj first :: rest)) →
  first !! "geometry" = None →
  route (app (exec (fetchRoute env) w)) = VUndefined
  ∧ app (exec (fetchRoute env) w) = setRoute VUndefined (app w)
  ∧ console (exec (fetchRoute env) w) = console w2.
Proof.
  intros Hs He H1 H2 Hj1 Hj2 Hnet Hroutes Hnone.
  pose proof (fetchRoute_after_geocoding
                _ _ _ _ _ _ _ Hs He H1 H2 Hj1 Hj2) as Hrun.
  cbv zeta in Hrun. rewrite Hnet in Hrun.
  assert (Hgeometry : first_route_geometry (VObj props) = Ok VUndefined).
  { unfold first_route_geometry. simpl. rewrite Hroutes. simpl.
    rewrite Hnone. reflexivity. }
  rewrite Hgeometry in Hrun.
  unfold exec. rewrite Hrun. simpl. auto.
Qed.

(** X12. [fetchRoute] does not check what the coordinates hold: for any two
    arrays that [join] can print, the empty array or one of another length
    included, it asks the directions service once, with the two joined texts
    separated by a semicolon. *)
Theorem fetchRoute_does_not_validate_coordinates (w w1 w2 : World)
    (c1 c2 : list value) (s1 s2 : string) :
  startLocation (app w) ≠ "" →
  endLocation (app w) ≠ "" →
  geocodeLocation env (startLocation (app w)) w = (Ok (VArr c1), w1) →
  geocodeLocation env (endLocation (app w)) w1 = (Ok (VArr c2), w2) →
  join (number_to_string env) c1 = Ok s1 →
  join (number_to_string env) c2 = Ok s2 →
  List.filter is_directions_request (issued (fetchRoute env) w)
  = [directions_endpoint +:+ s1 +:+ ";" +:+ s2
       +:+ "?geometries=geojson&access_token=" +:+ process_env_token env].
Proof.
  intros Hs He H1 H2 Hj1 Hj2.
  rewrite (fetchRoute_after_geocoding_requests
             _ _ _ _ _ _ _ Hs He H1 H2 Hj1 Hj2).
  cbn [List.filter].
  rewrite !geocode_url_not_directions, directions_url_is_directions.
  reflexivity.
Qed.

End Properties.

(** *** The handlers that use no service *)

(** The handler takes the two numbers out of [event.lngLat] by array
    destructuring, longitude first.  On an event whose [lngLat] is the array
    [[lon, lat]] it makes [userPin] the object
    [{latitude: lat, longitude: lon}], whatever [userPin] was before, and
    leaves the rest of the world untouched. *)
Theorem handleMapClick_replaces_userPin (lon lat : float) (w : World) :
  let pin :=
    VObj (<["latitude" := VNum lat]> (<["longitude" := VNum lon]> ∅)) in
  handleMapClick (VArr [VNum lon; VNum lat]) w
  = (Ok (), mkWorld (setUserPin pin (app w)) (requests w) (console w))
  ∧ userPin (app (exec (handleMapClick (VArr [VNum lon; VNum lat])) w)) = pin
  ∧ get pin "latitude" = Ok (VNum lat)
  ∧ get pin "longitude" = Ok (VNum lon).
Proof. repeat split. Qed.

(** The scenario of the specification: a click at (lon = -75.0, lat = 45.0). *)
Example handleMapClick_scenario (w : World) :
  userPin (app (exec (handleMapClick (VArr [VNum (-75.0); VNum 45.0])) w))
  = VObj (<["latitude" := VNum 45.0]> (<["longitude" := VNum (-75.0)]> ∅)).
Proof. reflexivity. Qed.

(** A string is destructured by code points, not by bytes. *)
Example handleMapClick_string_by_code_points (w : World) :
  userPin (app (exec (handleMapClick (VStr "é7")) w))
  = VObj (<["latitude" := VStr "7"]> (<["longitude" := VStr "é"]> ∅)).
Proof. reflexivity. Qed.

(** C6.  The component is written against the map library's [onMove],
    [evt.viewState] and [mapboxAccessToken], the interface in which a click
    event carries [lngLat] as an object with the properties [lng] and [lat].
    Such an object cannot be destructured as an array: for the click at
    (lon = -75.0, lat = 45.0) the handler throws a TypeError before it
    reaches [setUserPin], so [userPin] is not replaced by
    [{latitude: 45.0, longitude: -75.0}] but keeps the value it had, [null]
    in the state the component starts from. *)
Theorem handleMapClick_throws_on_lngLat_object (w : World) :
  let lngLat := VObj (<["lng" := VNum (-75.0)]> {[ "lat" := VNum 45.0 ]}) in
  let wanted :=
    VObj (<["latitude" := VNum 45.0]> (<["longitude" := VNum (-75.0)]> ∅)) in
  handleMapClick lngLat w = (Throw (TypeError "value is not iterable"), w)
  ∧ userPin (app (exec (handleMapClick lngLat) w)) = userPin (app w)
  ∧ userPin (app (exec (handleMapClick lngLat) (mkWorld initial_state [] [])))
    = VNull
  ∧ userPin (app (exec (handleMapClick lngLat) (mkWorld initial_state [] [])))
    ≠ wanted.
Proof. repeat split. discriminate. Qed.

(** The destructuring needs an iterable: on an object, such as one with
    properties [lng] and [lat], the handler throws and changes nothing. *)
Lemma handleMapClick_not_iterable (props : gmap string value) (w : World) :
  handleMapClick (VObj props) w
  = (Throw (TypeError "value is not iterable"), w).
Proof. reflexivity. Qed.

(** C7. Activating the marker of a park a second time changes nothing: after
    the first activation [selectedPark] is that park, and the world after
    the second activation is the world after the first. *)
Theorem marker_activation_idempotent (park : value) (evt1 evt2 : ClickEvent)
    (w : World) :
  let once := exec (marker_onClick park evt1) w in
  let twice := exec (marker_onClick park evt2) once in
  selectedPark (app once) = park
  ∧ selectedPark (app twice) = selectedPark (app once)
  ∧ twice = once.
Proof. repeat split. Qed.

(** Escape clears the selection, whichever park was shown; other keys do
    nothing. *)
Lemma keydown_listener_Escape (w : World) :
  selectedPark (app (exec (keydown_listener "Escape") w)) = VNull.
Proof. reflexivity. Qed.

Lemma keydown_listener_other_key (key : string) (w : World) :
  key ≠ "Escape" → keydown_listener key w = (Ok (), w).
Proof.
  intros Hkey. unfold keydown_listener.
  destruct (String.eqb_spec key "Escape"); [contradiction | reflexivity].
Qed.

(** C10. When the browser reports a position, the viewport gets its latitude
    and longitude and zoom 12; [bearing], [pitch], [width] and [height], and
    every other property, keep the value they had. *)
Theorem geolocation_success_updates_viewport (latitude longitude : float)
    (w : World) :
  let before := viewport (app w) in
  let after :=
    viewport (app (exec (geolocation_effect (Position latitude longitude)) w)) in
  after !! "latitude" = Some (VNum latitude)
  ∧ after !! "longitude" = Some (VNum longitude)
  ∧ after !! "zoom" = Some (VNum 12)
  ∧ after !! "bearing" = before !! "bearing"
  ∧ after !! "pitch" = before !! "pitch"
  ∧ after !! "width" = before !! "width"
  ∧ after !! "height" = before !! "height"
  ∧ (∀ name : string,
        name ≠ "latitude" → name ≠ "longitude" → name ≠ "zoom" →
        after !! name = before !! name).
Proof.
  simpl.
  assert (Hother : ∀ name : string,
             name ≠ "latitude" → name ≠ "longitude" → name ≠ "zoom" →
             (<["zoom" := VNum 12]>
                (<["longitude" := VNum longitude]>
                   (<["latitude" := VNum latitude]> (viewport (app w)))))
               !! name
             = viewport (app w) !! name).
  { intros name H1 H2 H3. by rewrite !lookup_insert_ne. }
  repeat split; try (apply Hother; discriminate); try exact Hother.
  - by rewrite lookup_insert_ne, lookup_insert_ne, lookup_insert_eq.
  - by rewrite lookup_insert_ne, lookup_insert_eq.
  - by rewrite lookup_insert_eq.
Qed.

(** *** Further properties *)

(** X13. [geocodeLocation] does not look at the HTTP status: two services that
    answer a request with the same body and different statuses give the same
    result, the same console line and the same world. *)
Theorem geocodeLocation_ignores_status (env1 env2 : Env) (location : string)
    (w : World) (okay1 okay2 : bool) (payload : option value) :
  import_meta_env_token env1 = import_meta_env_token env2 →
  number_to_string env1 = number_to_string env2 →
  string_to_number env1 = string_to_number env2 →
  net env1 (requests w) (geocode_url env1 location)
  = Resolved (mkResponse okay1 payload) →
  net env2 (requests w) (geocode_url env2 location)
  = Resolved (mkResponse okay2 payload) →
  geocodeLocation env1 location w = geocodeLocation env2 location w.
Proof.
  intros Htoken Hshow Hread Hnet1 Hnet2.
  assert (Hurl : geocode_url env1 location = geocode_url env2 location).
  { unfold geocode_url. rewrite Htoken. reflexivity. }
  unfold geocodeLocation, try_catch, fetch, mbind, M_mbind, bind.
  rewrite Hnet1, Hnet2, Hurl.
  unfold has_features. rewrite Hshow, Hread. reflexivity.
Qed.

(** X14. A move of the map merges the new camera state into the viewport:
    a property the event carries takes the event's value, a property it does
    not carry (such as [width] and [height]) keeps its value. *)
Theorem handleMove_lookup (viewState : gmap string value) (w : World)
    (name : string) :
  viewport (app (exec (handleMove viewState) w)) !! name
  = match viewState !! name with
    | Some v => Some v
    | None => viewport (app w) !! name
    end.
Proof.
  simpl. rewrite lookup_union.
  destruct (viewState !! name), (viewport (app w) !! name); reflexivity.
Qed.

(** X15. Two moves in a row are one move with the merged camera state, the
    later event winning; so repeating a move changes nothing. *)
Theorem handleMove_compose (first second : gmap string value) (w : World) :
  exec (handleMove second) (exec (handleMove first) w)
  = exec (handleMove (second ∪ first)) w
  ∧ exec (handleMove first) (exec (handleMove first) w)
    = exec (handleMove first) w.
Proof.
  unfold exec, handleMove, modify_state, setViewport. simpl.
  split.
  - by rewrite (assoc (∪)).
  - by rewrite (assoc (∪)), (idemp (∪)).
Qed.

(** X16. When the position is refused or the browser has no geolocation, the
    effect only writes a line to the console: the component state, with the
    viewport it started from, is untouched and no request is made. *)
Theorem geolocation_failure_keeps_state (g : geolocation) (w : World) :
  (∀ latitude longitude, g ≠ Position latitude longitude) →
  app (exec (geolocation_effect g) w) = app w
  ∧ requests (exec (geolocation_effect g) w) = requests w
  ∧ ∃ msg,
      console (exec (geolocation_effect g) w) = console w ++ [ConsoleLog msg []].
Proof.
  intros Hfail. destruct g as [| |latitude longitude]; simpl; eauto.
  exfalso. eapply Hfail. reflexivity.
Qed.

(** X17. A position fix moves the map exactly as a move event carrying that
    latitude, that longitude and zoom 12 would. *)
Theorem geolocation_success_is_a_move (latitude longitude : float) (w : World) :
  geolocation_effect (Position latitude longitude) w
  = handleMove
      (<["zoom" := VNum 12]>
         (<["longitude" := VNum longitude]>
            {[ "latitude" := VNum latitude ]})) w.
Proof.
  unfold geolocation_effect, handleMove, modify_state, setViewport. simpl.
  do 3 f_equal. apply map_eq. intros name.
  rewrite lookup_union.
  destruct (decide (name = "zoom")) as [-> | Hz].
  { rewrite !lookup_insert_eq. by destruct (viewport (app w) !! "zoom"). }
  rewrite !(lookup_insert_ne _ "zoom") by done.
  destruct (decide (name = "longitude")) as [-> | Hl].
  { rewrite !lookup_insert_eq. by destruct (viewport (app w) !! "longitude"). }
  rewrite !(lookup_insert_ne _ "longitude") by done.
  destruct (decide (name = "latitude")) as [-> | Ha].
  { rewrite lookup_insert_eq, lookup_singleton_eq.
    by destruct (viewport (app w) !! "latitude"). }
  rewrite lookup_insert_ne, lookup_singleton_ne by done.
  by destruct (viewport (app w) !! name).
Qed.

(** X18. Escape clears the selection whichever park is shown: afterwards
    [selectedPark] is [null], and the other five slots, the requests and the
    console are what they were.  Every other key leaves the world as it
    is. *)
Theorem keydown_listener_effect (key : string) (w : World) :
  (key = "Escape" →
     let after := exec (keydown_listener key) w in
     selectedPark (app after) = VNull
     ∧ viewport (app after) = viewport (app w)
     ∧ userPin (app after) = userPin (app w)
     ∧ startLocation (app after) = startLocation (app w)
     ∧ endLocation (app after) = endLocation (app w)
     ∧ route (app after) = route (app w)
     ∧ requests after = requests w
     ∧ console after = console w)
  ∧ (key ≠ "Escape" → exec (keydown_listener key) w = w).
Proof.
  unfold keydown_listener.
  destruct (String.eqb_spec key "Escape") as [-> | Hkey]; split; intros H;
    try contradiction.
  - repeat split.
  - reflexivity.
Qed.

(** X19. Selecting and dismissing is a round trip: from a world where no park
    is selected, activating a marker and then closing the popup, or pressing
    Escape, gives back that world. *)
Theorem select_then_dismiss_round_trip (park : value) (evt : ClickEvent)
    (w : World) :
  selectedPark (app w) = VNull →
  exec popup_onClose (exec (marker_onClick park evt) w) = w
  ∧ exec (keydown_listener "Escape") (exec (marker_onClick park evt) w) = w.
Proof.
  intros Hnone. destruct w as [[] ? ?]. simpl in *. subst.
  split; reflexivity.
Qed.

(** X20. On a value that cannot be iterated (an object such as one with [lng]
    and [lat], a number, a boolean, [null], [undefined]) the click handler
    throws a TypeError and leaves the world, [userPin] included, as it was. *)
Theorem handleMapClick_needs_an_iterable (lngLat : value) (w : World) :
  (∀ elems, lngLat ≠ VArr elems) →
  (∀ s, lngLat ≠ VStr s) →
  handleMapClick lngLat w = (Throw (TypeError "value is not iterable"), w).
Proof.
  intros Harr Hstr. destruct lngLat; try reflexivity.
  - exfalso. eapply Hstr. reflexivity.
  - exfalso. eapply Harr. reflexivity.
Qed.

(** X21. The click handler takes the pin from the first two entries of the
    array, whatever they are: further entries are ignored, and a missing
    entry gives a pin whose coordinate is [undefined]. *)
Theorem handleMapClick_on_any_array (elems : list value) (w : World) :
  userPin (app (exec (handleMapClick (VArr elems)) w))
  = VObj (<["latitude" := default VUndefined (elems !! 1)]>
            (<["longitude" := default VUndefined (elems !! 0)]> ∅))
  ∧ handleMapClick (VArr elems) w
    = handleMapClick (VArr (take 2 elems)) w.
Proof.
  split; [reflexivity|].
  destruct elems as [|a [|b rest]]; reflexivity.
Qed.



(** ** The theorems at the sample runs *)


Lemma fetchRoute_empty_input_noop_witness :
  let w := Sample.world "" "Toronto" in
  fetchRoute Sample.env w = (Ok (), w)
  ∧ issued (fetchRoute Sample.env) w = []
  ∧ route (app (exec (fetchRoute Sample.env) w)) = route (app w).
Proof.
  apply (fetchRoute_empty_input_noop Sample.env (Sample.world "" "Toronto")).
  left. reflexivity.
Defined.

Lemma fetchRoute_requests_route_once_and_commits_it_witness :
  let w := Sample.world "Ottawa" "Toronto" in
  let url :=
    "https://api.mapbox.com/directions/v5/mapbox/driving/-75.69,45.42;-79.38,43.65?geometries=geojson&access_token=pk" in
  List.filter is_directions_request (issued (fetchRoute Sample.env) w) = [url]
  ∧ route (app w) = VNull
  ∧ route (app (exec (fetchRoute Sample.env) w)) = Sample.line
  ∧ app (exec (fetchRoute Sample.env) w) = setRoute Sample.line (app w).
Proof.
  intros w url.
  set (w1 := exec (geocodeLocation Sample.env "Ottawa") w).
  set (w2 := exec (geocodeLocation Sample.env "Toronto") w1).
  assert (Hs : startLocation (app w) ≠ "") by discriminate.
  assert (He : endLocation (app w) ≠ "") by discriminate.
  assert (H1 : geocodeLocation Sample.env (startLocation (app w)) w
               = (Ok (VArr [VNum (-75.69); VNum 45.42]), w1))
    by (vm_compute; reflexivity).
  assert (H2 : geocodeLocation Sample.env (endLocation (app w)) w1
               = (Ok (VArr [VNum (-79.38); VNum 43.65]), w2))
    by (vm_compute; reflexivity).
  destruct (fetchRoute_requests_route_once_and_commits_it
              Sample.env w w1 w2 _ _ _ _ Hs He H1 H2)
    as (_ & Hone & Hcommit).
  split; [exact Hone|]. split; [reflexivity|].
  apply (Hcommit {[ "routes" := VArr [VObj {[ "geometry" := Sample.line ]}] ]}
                 {[ "geometry" := Sample.line ]} []);
    vm_compute; reflexivity.
Defined.

Lemma fetchRoute_aborts_when_not_found_witness :
  let w := Sample.world "Atlantis" "Toronto" in
  completion (fetchRoute Sample.env) w = Ok ()
  ∧ List.filter is_directions_request (issued (fetchRoute Sample.env) w) = []
  ∧ app (exec (fetchRoute Sample.env) w) = app w.
Proof.
  intros w.
  set (w1 := exec (geocodeLocation Sample.env "Atlantis") w).
  set (w2 := exec (geocodeLocation Sample.env "Toronto") w1).
  assert (Hs : startLocation (app w) ≠ "") by discriminate.
  assert (He : endLocation (app w) ≠ "") by discriminate.
  assert (H1 : geocodeLocation Sample.env (startLocation (app w)) w
               = (Ok VNull, w1))
    by (vm_compute; reflexivity).
  assert (H2 : geocodeLocation Sample.env (endLocation (app w)) w1
               = (Ok Sample.toronto, w2))
    by (vm_compute; reflexivity).
  destruct (fetchRoute_aborts_when_not_found
              Sample.env w w1 w2 _ _ Hs He H1 H2 (or_introl eq_refl))
    as (Hdone & Hnone & _ & _ & Happ).
  auto.
Defined.

Lemma geocodeLocation_result_witness :
  let w := Sample.world "" "" in
  completion (geocodeLocation Sample.env "Ottawa") w = Ok Sample.ottawa
  ∧ completion (geocodeLocation Sample.env "Atlantis") w = Ok VNull
  ∧ completion (geocodeLocation Sample.env "Nowhere") w = Ok VNull
  ∧ completion (geocodeLocation Sample.env "Garbled") w = Ok VNull.
Proof.
  intros w.
  destruct (geocodeLocation_result Sample.env "Ottawa" w) as (Hfirst & _).
  destruct (geocodeLocation_result Sample.env "Atlantis" w)
    as (_ & Hnone & _).
  destruct (geocodeLocation_result Sample.env "Nowhere" w)
    as (_ & _ & Hrejected & _).
  destruct (geocodeLocation_result Sample.env "Garbled" w)
    as (_ & _ & _ & Hgarbled & _).
  split; [|split; [|split]].
  - apply (Hfirst true
             {[ "features" :=
                  VArr [VObj {[ "geometry" :=
                                  VObj {[ "coordinates" := Sample.ottawa ]} ]}] ]}
             {[ "geometry" := VObj {[ "coordinates" := Sample.ottawa ]} ]}
             [] {[ "coordinates" := Sample.ottawa ]});
      vm_compute; reflexivity.
  - apply (Hnone true {[ "features" := VArr [] ]}); vm_compute; reflexivity.
  - apply Hrejected. vm_compute. reflexivity.
  - apply (Hgarbled true). vm_compute. reflexivity.
Defined.

Lemma fetchRoute_http_failure_witness :
  let refused := VObj {[ "message" := VStr "Not Authorized" ]} in
  let env := Sample.env_with (Resolved (mkResponse false (Some refused))) in
  let w := Sample.world "Ottawa" "Toronto" in
  console (exec (fetchRoute env) w)
  = [ConsoleLog "Geocoded Ottawa:" [inl Sample.ottawa];
     ConsoleLog "Geocoded Toronto:" [inl Sample.toronto];
     ConsoleError "Error fetching route:" [inl refused]]
  ∧ route (app (exec (fetchRoute env) w)) = route (app w).
Proof.
  intros refused env w.
  set (w1 := exec (geocodeLocation env "Ottawa") w).
  set (w2 := exec (geocodeLocation env "Toronto") w1).
  assert (Hs : startLocation (app w) ≠ "") by discriminate.
  assert (He : endLocation (app w) ≠ "") by discriminate.
  assert (H1 : geocodeLocation env (startLocation (app w)) w
               = (Ok (VArr [VNum (-75.69); VNum 45.42]), w1))
    by (vm_compute; reflexivity).
  assert (H2 : geocodeLocation env (endLocation (app w)) w1
               = (Ok (VArr [VNum (-79.38); VNum 43.65]), w2))
    by (vm_compute; reflexivity).
  destruct (fetchRoute_http_failure
              env w w1 w2 _ _ "-75.69,45.42" "-79.38,43.65"
              (mkResponse false (Some refused)) Hs He H1 H2)
    as (Hconsole & _ & Hroute & _);
    [vm_compute; reflexivity .. | ].
  split; [exact Hconsole | exact Hroute].
Defined.

Lemma fetchRoute_no_route_candidates_witness :
  let env :=
    Sample.env_with
      (Resolved (mkResponse true (Some (VObj {[ "routes" := VArr [] ]})))) in
  let w := Sample.world "Ottawa" "Toronto" in
  completion (fetchRoute env) w = Ok ()
  ∧ route (app (exec (fetchRoute env) w)) = route (app w).
Proof.
  intros env w.
  set (w1 := exec (geocodeLocation env "Ottawa") w).
  set (w2 := exec (geocodeLocation env "Toronto") w1).
  assert (Hs : startLocation (app w) ≠ "") by discriminate.
  assert (He : endLocation (app w) ≠ "") by discriminate.
  assert (H1 : geocodeLocation env (startLocation (app w)) w
               = (Ok (VArr [VNum (-75.69); VNum 45.42]), w1))
    by (vm_compute; reflexivity).
  assert (H2 : geocodeLocation env (endLocation (app w)) w1
               = (Ok (VArr [VNum (-79.38); VNum 43.65]), w2))
    by (vm_compute; reflexivity).
  destruct (fetchRoute_no_route_candidates
              env w w1 w2 _ _ "-75.69,45.42" "-79.38,43.65"
              {[ "routes" := VArr [] ]} Hs He H1 H2)
    as (_ & Hdone & _ & Hroute & _);
    [vm_compute; reflexivity .. | ].
  split; [exact Hdone | exact Hroute].
Defined.

Lemma geolocation_success_updates_viewport_witness :
  let w := Sample.world "" "" in
  viewport (app (exec (geolocation_effect (Position 43.65 (-79.38))) w))
    !! "bearing"
  = Some (VNum 0).
Proof.
  intros w.
  destruct (geolocation_success_updates_viewport 43.65 (-79.38) w)
    as (_ & _ & _ & _ & _ & _ & _ & Hother).
  rewrite (Hother "bearing"); [reflexivity | discriminate ..].
Defined.

(** C5 as stated fails on an answer whose body is not JSON: the status is
    not a success, yet nothing is logged under "Error fetching route:"; the
    console shows the error of [json()] instead. *)
Lemma fetchRoute_http_failure_unparsed_body :
  let response := mkResponse false None in
  let env := Sample.env_with (Resolved response) in
  let w := Sample.world "Ottawa" "Toronto" in
  let url :=
    "https://api.mapbox.com/directions/v5/mapbox/driving/-75.69,45.42;-79.38,43.65?geometries=geojson&access_token=pk" in
  issued (fetchRoute env) w
  = ["https://api.mapbox.com/geocoding/v5/mapbox.places/Ottawa.json?access_token=pk";
     "https://api.mapbox.com/geocoding/v5/mapbox.places/Toronto.json?access_token=pk";
     url]
  ∧ net env (removelast (issued (fetchRoute env) w)) url = Resolved response
  ∧ ok response = false
  ∧ console (exec (fetchRoute env) w)
    = [ConsoleLog "Geocoded Ottawa:" [inl Sample.ottawa];
       ConsoleLog "Geocoded Toronto:" [inl Sample.toronto];
       ConsoleError "Error in geocoding or fetching route:" [inr JsonRejected]]
  ∧ ¬ ∃ errorData,
        In (ConsoleError "Error fetching route:" [inl errorData])
           (console (exec (fetchRoute env) w)).
Proof.
  intros response env w url.
  assert (Hconsole :
            console (exec (fetchRoute env) w)
            = [ConsoleLog "Geocoded Ottawa:" [inl Sample.ottawa];
               ConsoleLog "Geocoded Toronto:" [inl Sample.toronto];
               ConsoleError "Error in geocoding or fetching route:"
                            [inr JsonRejected]])
    by (vm_compute; reflexivity).
  repeat split; try (vm_compute; reflexivity).
  rewrite Hconsole. intros [errorData Hin]. simpl in Hin.
  destruct Hin as [H | [H | [H | []]]]; discriminate H.
Qed.

(** ** The further properties at the sample runs *)

Lemma geocodeLocation_without_features_witness :
  completion (geocodeLocation Edge.env "Denied") (Sample.world "" "") = Ok VNull.
Proof.
  unfold completion.
  rewrite (geocodeLocation_without_features
             Edge.env "Denied" (Sample.world "" "") false
             {[ "message" := VStr "Not Authorized" ]});
    [reflexivity | vm_compute; reflexivity ..].
Defined.

Lemma geocodeLocation_candidate_without_geometry_witness :
  completion (geocodeLocation Edge.env "Broken") (Sample.world "" "") = Ok VNull.
Proof.
  unfold completion.
  rewrite (geocodeLocation_candidate_without_geometry
             Edge.env "Broken" (Sample.world "" "") true
             {[ "features" := VArr [VObj {[ "id" := VStr "place.1" ]}] ]}
             {[ "id" := VStr "place.1" ]} []);
    [reflexivity | vm_compute; reflexivity ..].
Defined.

Lemma geocodeLocation_candidate_without_coordinates_witness :
  completion (geocodeLocation Edge.env "Vague") (Sample.world "" "")
  = Ok VUndefined.
Proof.
  unfold completion.
  rewrite (geocodeLocation_candidate_without_coordinates
             Edge.env "Vague" (Sample.world "" "") true
             {[ "features" :=
                  VArr [VObj {[ "geometry" :=
                                  VObj {[ "type" := VStr "Point" ]} ]}] ]}
             {[ "geometry" := VObj {[ "type" := VStr "Point" ]} ]}
             {[ "type" := VStr "Point" ]} []);
    [reflexivity | vm_compute; reflexivity ..].
Defined.

Lemma fetchRoute_commits_or_logs_witness :
  let w := Sample.world "Ottawa" "Toronto" in
  let w2 :=
    exec (geocodeLocation Sample.env "Toronto")
         (exec (geocodeLocation Sample.env "Ottawa") w) in
  let after := exec (fetchRoute Sample.env) w in
  (∃ geometry s1 s2 data,
      net Sample.env (requests w2) (directions_url Sample.env s1 s2)
      = Resolved (mkResponse true (Some data))
      ∧ first_route_geometry data = Ok geometry
      ∧ requests after = requests w2 ++ [directions_url Sample.env s1 s2]
      ∧ route (app after) = geometry
      ∧ viewport (app after) = viewport (app w)
      ∧ selectedPark (app after) = selectedPark (app w)
      ∧ userPin (app after) = userPin (app w)
      ∧ startLocation (app after) = startLocation (app w)
      ∧ endLocation (app after) = endLocation (app w)
      ∧ console after = console w2)
  ∨ (∃ msg args,
        app after = app w
        ∧ console after = console w2 ++ [ConsoleError msg args]).
Proof.
  apply (fetchRoute_commits_or_logs Sample.env (Sample.world "Ottawa" "Toronto"));
    discriminate.
Defined.

Lemma fetchRoute_aborts_on_falsy_result_witness :
  let w := Sample.world "Vague" "Toronto" in
  issued (fetchRoute Edge.env) w
  = ["https://api.mapbox.com/geocoding/v5/mapbox.places/Vague.json?access_token=pk";
     "https://api.mapbox.com/geocoding/v5/mapbox.places/Toronto.json?access_token=pk"]
  ∧ app (exec (fetchRoute Edge.env) w) = app w.
Proof.
  intros w.
  set (w1 := exec (geocodeLocation Edge.env "Vague") w).
  set (w2 := exec (geocodeLocation Edge.env "Toronto") w1).
  assert (Hs : startLocation (app w) ≠ "") by discriminate.
  assert (He : endLocation (app w) ≠ "") by discriminate.
  assert (H1 : geocodeLocation Edge.env (startLocation (app w)) w
               = (Ok VUndefined, w1))
    by (vm_compute; reflexivity).
  assert (H2 : geocodeLocation Edge.env (endLocation (app w)) w1
               = (Ok Sample.toronto, w2))
    by (vm_compute; reflexivity).
  destruct (fetchRoute_aborts_on_falsy_result
              Edge.env w w1 w2 _ _ Hs He H1 H2 (or_introl eq_refl))
    as (Hissued & _ & Happ).
  split; [exact Hissued | exact Happ].
Defined.

Lemma fetchRoute_start_not_an_array_witness :
  let w := Sample.world "Texty" "Toronto" in
  issued (fetchRoute Edge.env) w
  = ["https://api.mapbox.com/geocoding/v5/mapbox.places/Texty.json?access_token=pk";
     "https://api.mapbox.com/geocoding/v5/mapbox.places/Toronto.json?access_token=pk"]
  ∧ app (exec (fetchRoute Edge.env) w) = app w.
Proof.
  intros w.
  set (w1 := exec (geocodeLocation Edge.env "Texty") w).
  set (w2 := exec (geocodeLocation Edge.env "Toronto") w1).
  assert (Hs : startLocation (app w) ≠ "") by discriminate.
  assert (He : endLocation (app w) ≠ "") by discriminate.
  assert (H1 : geocodeLocation Edge.env (startLocation (app w)) w
               = (Ok (VStr "here"), w1))
    by (vm_compute; reflexivity).
  assert (H2 : geocodeLocation Edge.env (endLocation (app w)) w1
               = (Ok Sample.toronto, w2))
    by (vm_compute; reflexivity).
  destruct (fetchRoute_start_not_an_array
              Edge.env w w1 w2 _ _ Hs He H1 H2 eq_refl eq_refl)
    as (Hissued & _ & Happ); [discriminate|].
  split; [exact Hissued | exact Happ].
Defined.

Lemma fetchRoute_directions_unreachable_witness :
  let env := Sample.env_with Rejected in
  let w := Sample.world "Ottawa" "Toronto" in
  console (exec (fetchRoute env) w)
  = [ConsoleLog "Geocoded Ottawa:" [inl Sample.ottawa];
     ConsoleLog "Geocoded Toronto:" [inl Sample.toronto];
     ConsoleError "Error in geocoding or fetching route:" [inr FetchRejected]]
  ∧ app (exec (fetchRoute env) w) = app w.
Proof.
  intros env w.
  set (w1 := exec (geocodeLocation env "Ottawa") w).
  set (w2 := exec (geocodeLocation env "Toronto") w1).
  assert (Hs : startLocation (app w) ≠ "") by discriminate.
  assert (He : endLocation (app w) ≠ "") by discriminate.
  assert (H1 : geocodeLocation env (startLocation (app w)) w
               = (Ok (VArr [VNum (-75.69); VNum 45.42]), w1))
    by (vm_compute; reflexivity).
  assert (H2 : geocodeLocation env (endLocation (app w)) w1
               = (Ok (VArr [VNum (-79.38); VNum 43.65]), w2))
    by (vm_compute; reflexivity).
  destruct (fetchRoute_directions_unreachable
              env w w1 w2 _ _ "-75.69,45.42" "-79.38,43.65" Hs He H1 H2)
    as (Hconsole & _ & Happ);
    [vm_compute; reflexivity .. | left; vm_compute; reflexivity | ].
  split; [exact Hconsole | exact Happ].
Defined.

Lemma fetchRoute_first_route_without_geometry_witness :
  let summary := VObj {[ "routes" := VArr [VObj {[ "duration" := VNum 1 ]}] ]} in
  let env := Sample.env_with (Resolved (mkResponse true (Some summary))) in
  let w := Sample.world "Ottawa" "Toronto" in
  route (app (exec (fetchRoute env) w)) = VUndefined.
Proof.
  intros summary env w.
  set (w1 := exec (geocodeLocation env "Ottawa") w).
  set (w2 := exec (geocodeLocation env "Toronto") w1).
  assert (Hs : startLocation (app w) ≠ "") by discriminate.
  assert (He : endLocation (app w) ≠ "") by discriminate.
  assert (H1 : geocodeLocation env (startLocation (app w)) w
               = (Ok (VArr [VNum (-75.69); VNum 45.42]), w1))
    by (vm_compute; reflexivity).
  assert (H2 : geocodeLocation env (endLocation (app w)) w1
               = (Ok (VArr [VNum (-79.38); VNum 43.65]), w2))
    by (vm_compute; reflexivity).
  destruct (fetchRoute_first_route_without_geometry
              env w w1 w2 _ _ "-75.69,45.42" "-79.38,43.65"
              {[ "routes" := VArr [VObj {[ "duration" := VNum 1 ]}] ]}
              {[ "duration" := VNum 1 ]} [] Hs He H1 H2)
    as (Hroute & _); [vm_compute; reflexivity .. | ].
  exact Hroute.
Defined.

Lemma fetchRoute_does_not_validate_coordinates_witness :
  let w := Sample.world "Blank" "Toronto" in
  List.filter is_directions_request (issued (fetchRoute Edge.env) w)
  = ["https://api.mapbox.com/directions/v5/mapbox/driving/;-79.38,43.65?geometries=geojson&access_token=pk"].
Proof.
  intros w.
  set (w1 := exec (geocodeLocation Edge.env "Blank") w).
  set (w2 := exec (geocodeLocation Edge.env "Toronto") w1).
  assert (Hs : startLocation (app w) ≠ "") by discriminate.
  assert (He : endLocation (app w) ≠ "") by discriminate.
  assert (H1 : geocodeLocation Edge.env (startLocation (app w)) w
               = (Ok (VArr []), w1))
    by (vm_compute; reflexivity).
  assert (H2 : geocodeLocation Edge.env (endLocation (app w)) w1
               = (Ok (VArr [VNum (-79.38); VNum 43.65]), w2))
    by (vm_compute; reflexivity).
  apply (fetchRoute_does_not_validate_coordinates
           Edge.env w w1 w2 _ _ "" "-79.38,43.65" Hs He H1 H2);
    vm_compute; reflexivity.
Defined.

Lemma geocodeLocation_ignores_status_witness :
  let accepting :=
    mkEnv (λ _ _, Resolved (mkResponse true (Some Edge.denied)))
          "pk" "pk" Sample.show (λ _, PrimFloat.nan) in
  let w := Sample.world "" "" in
  geocodeLocation Edge.env "Denied" w = geocodeLocation accepting "Denied" w.
Proof.
  intros accepting w.
  apply (geocodeLocation_ignores_status
           Edge.env accepting "Denied" w false true (Some Edge.denied));
    reflexivity.
Defined.

Lemma geolocation_failure_keeps_state_witness :
  let w := mkWorld initial_state [] [] in
  app (exec (geolocation_effect PositionUnavailable) w) = initial_state.
Proof.
  intros w.
  destruct (geolocation_failure_keeps_state PositionUnavailable w)
    as (Happ & _); [discriminate | exact Happ].
Defined.

Lemma keydown_listener_effect_witness :
  let shown :=
    mkState (viewport initial_state) Sample.line VNull "" "" VNull in
  let w := mkWorld shown [] [] in
  selectedPark (app w) = Sample.line
  ∧ selectedPark (app (exec (keydown_listener "Escape") w)) = VNull
  ∧ exec (keydown_listener "a") w = w.
Proof.
  intros shown w. split; [reflexivity|]. split.
  - exact (proj1 (proj1 (keydown_listener_effect "Escape" w) eq_refl)).
  - apply (proj2 (keydown_listener_effect "a" w)). discriminate.
Defined.

Lemma select_then_dismiss_round_trip_witness :
  let w := Sample.world "" "" in
  exec popup_onClose (exec (marker_onClick Sample.line (mkClickEvent false)) w)
  = w.
Proof.
  intros w.
  apply (select_then_dismiss_round_trip Sample.line (mkClickEvent false) w).
  reflexivity.
Defined.

Lemma handleMapClick_needs_an_iterable_witness :
  let lngLat := VObj (<["lng" := VNum (-75)]> {[ "lat" := VNum 45 ]}) in
  let w := Sample.world "" "" in
  handleMapClick lngLat w = (Throw (TypeError "value is not iterable"), w).
Proof.
  intros lngLat w.
  apply (handleMapClick_needs_an_iterable lngLat w); discriminate.
Defined.


